(** * The DPR scoring mock of [src/lib/api.ts]

    A shallow embedding of [processDocument] and of the helpers it calls
    ([score], [hash], [clamp01], [buildRecommendations]), followed by the
    properties of the scoring and risk pipeline.

    Conventions of the embedding.
    - A JavaScript [number] that the code uses as a real quantity (ratios,
      risks, scores) is an IEEE 754 binary64 value: Rocq's primitive [float],
      whose operations round to nearest-even exactly as the ECMAScript ones.
    - A [number] that the code only ever uses as an integer below [2^53]
      (the 32-bit hash, the seed and its remainders, a count of array
      elements) is a [Z]; [Z2F] is the exact injection into [float].
    - The module-level variables [dprs] and [resultsMap] are the two fields of
      a [Store] that is threaded through [processDocument].
    - A string is a [string] whose characters are the code units below 256,
      which covers the identifiers made by [id()] (base 36) and the three
      language tags.
    - An [async] function returns a promise; the model returns the state in
      which the promise settles ([Fulfilled] or [Rejected]). The [sleep]
      delays carry no data and are left out. *)

From Stdlib Require Import ZArith List Bool Lia String Ascii Znumtheory.
From Stdlib Require Import Floats Uint63.
From stdpp Require Import base gmap strings.

Set Warnings "-inexact-float".

Local Open Scope Z_scope.

(** ** JavaScript primitives *)

Module JS.

(** The exact injection of an integer into the doubles (exact for
    [|z| < 2^53], the only range the code reaches). *)
Definition Z2F (z : Z) : float :=
  if z <? 0 then PrimFloat.opp (PrimFloat.of_uint63 (Uint63.of_Z (- z)))
  else PrimFloat.of_uint63 (Uint63.of_Z z).

(** [x | 0]: ToInt32, wrap-around into [-2^31, 2^31). *)
Definition ToInt32 (z : Z) : Z := (z + 2 ^ 31) mod 2 ^ 32 - 2 ^ 31.

(** [Math.imul(a, b)]: the low 32 bits of the product, signed. *)
Definition Math_imul (a b : Z) : Z := ToInt32 (a * b).

(** [Math.abs] on an integer. *)
Definition Math_abs (z : Z) : Z := Z.abs z.

(** [Math.min] and [Math.max] on doubles: NaN is contagious and
    [-0] is below [+0]. *)
Definition Math_min (a b : float) : float :=
  if PrimFloat.is_nan a || PrimFloat.is_nan b then PrimFloat.nan
  else if (a <? b)%float then a
  else if (b <? a)%float then b
  else if PrimFloat.get_sign a then a else b.

Definition Math_max (a b : float) : float :=
  if PrimFloat.is_nan a || PrimFloat.is_nan b then PrimFloat.nan
  else if (a <? b)%float then b
  else if (b <? a)%float then a
  else if PrimFloat.get_sign a then b else a.

(** [Math.round]: the integer closest to [x], ties towards [+infinity]; NaN, the
    infinities and the zeros are returned unchanged, and a result of zero
    keeps the sign of [x]. A finite non-zero double is [+/-m * 2^e]; for
    [e < 0] the rounded value [floor (x + 1/2)] is computed exactly in
    [Z]. *)
Definition Math_round (x : float) : float :=
  match Prim2SF x with
  | S754_nan | S754_infinity _ | S754_zero _ => x
  | S754_finite s m e =>
      if 0 <=? e then x
      else
        let n := if s then Z.neg m else Z.pos m in
        let r := (2 * n + 2 ^ (- e)) / 2 ^ (- e + 1) in
        if r =? 0 then (if s then (-0)%float else 0%float) else Z2F r
  end.

(** [s.charCodeAt(i)] for the characters of a string. *)
Definition charCode (c : ascii) : Z := Z.of_nat (nat_of_ascii c).

(** The settled state of a promise. *)
Inductive Settled (A : Type) : Type :=
| Fulfilled (value : A)
| Rejected (reason : string).
Arguments Fulfilled {A} value.
Arguments Rejected {A} reason.

End JS.
Import JS.

(** ** Data model ([src/lib/types.ts]) *)

Inductive LanguageOption : Type := EN | HI | Regional.

(** The string a [LanguageOption] is at run time. *)
Definition language_string (l : LanguageOption) : string :=
  match l with
  | EN => "EN"
  | HI => "HI"
  | Regional => "Regional"
  end.

Inductive DprStatus : Type := uploaded | processing | completed | failed.

Record DPRFile : Type := {
  dpr_id : string;
  filename : string;
  uploadedAt : string;
  dpr_language : LanguageOption;
  status : DprStatus;
  sizeBytes : option Z
}.

Record ProjectProfile : Type := { geoCoordinates : bool; timeline : bool }.
Record Beneficiary : Type := { sdgMpiAligned : bool; kpisPresent : bool }.
Record Financial : Type := { gstComponents : bool; omFourYears : bool }.
Record Technical : Type := { gatiShaktiAligned : bool; sorBasis : bool }.
Record Certificates : Type := { landAvailability : bool; nonDuplication : bool }.

Record ValidationResult : Type := {
  projectProfile : ProjectProfile;
  beneficiary : Beneficiary;
  financial : Financial;
  technical : Technical;
  certificates : Certificates
}.

Inductive Grade : Type := Excellent | Good | Fair | Poor.

Record Scores : Type := {
  completeness : float;
  compliance : float;
  technicalQuality : float;
  impactSustainability : float;
  total : float;
  grade : Grade
}.

(** [outOfRange?] and [ineligibleSector?] are optional fields: [None] is
    [undefined]. *)
Record Eligibility : Type := {
  sizeCheckOk : bool;
  outOfRange : option bool;
  negativeList : bool
}.

Record ConsistencyFlags : Type := {
  budgetMismatch : bool;
  timelineIssues : bool;
  missingData : bool;
  ineligibleSector : option bool
}.

Record RiskPrediction : Type := {
  costOverrunRisk : float;
  delayRisk : float;
  implementationRisk : float
}.

Record ProcessingResult : Type := {
  validation : ValidationResult;
  scores : Scores;
  eligibility : Eligibility;
  flags : ConsistencyFlags;
  risk : RiskPrediction;
  recommendations : list string
}.

(** The module-level state of [api.ts]. *)
Record Store : Type := {
  dprs : list DPRFile;
  resultsMap : gmap string ProcessingResult
}.

(** ** The helpers of [api.ts] *)

(** [score(flags, outOf)], lines 125-128. The [reduce] counts in [Z]. *)
Definition score (flags : list bool) (outOf : float) : float :=
  let count := fold_left (fun acc (f : bool) => acc + (if f then 1 else 0)) flags 0 in
  let ratio := (Z2F count / Z2F (Z.of_nat (length flags)))%float in
  Math_round (ratio * outOf)%float.

(** [hash(s)], lines 130-134: the loop over the characters, then
    [Math.abs]. *)
Fixpoint hash_loop (s : string) (h : Z) : Z :=
  match s with
  | EmptyString => h
  | String c s' => hash_loop s' (ToInt32 (Math_imul 31 h + charCode c))
  end.

Definition hash (s : string) : Z := Math_abs (hash_loop s 0).

(** [clamp01(x)], lines 136-138. *)
Definition clamp01 (x : float) : float := Math_max 0 (Math_min 1 x).

(** [recs.push(s)]. *)
Definition push (recs : list string) (s : string) : list string := recs ++ [s].

(** [buildRecommendations(scores, flags, risk)], lines 140-150. *)
Definition buildRecommendations
    (scores : Scores) (flags : ConsistencyFlags) (risk : RiskPrediction)
    : list string :=
  let recs : list string := [] in
  let recs := if budgetMismatch flags
    then push recs "Review budget allocations to resolve mismatches against scope."
    else recs in
  let recs := if timelineIssues flags
    then push recs "Adjust project timeline to reflect realistic milestones."
    else recs in
  let recs := if missingData flags
    then push recs "Provide missing documentation and KPI evidence."
    else recs in
  let recs := if (0.5 <? delayRisk risk)%float
    then push recs "Increase monitoring cadence and add buffer for critical path items."
    else recs in
  let recs := if (compliance scores <? 20)%float
    then push recs "Ensure GST, O&M, and certificates are fully documented."
    else recs in
  let recs := if (technicalQuality scores <? 18)%float
    then push recs "Align design with GatiShakti and SOR standards."
    else recs in
  let recs := if (length recs =? 0)%nat
    then push recs "Project is in strong shape. Proceed to approval with standard oversight."
    else recs in
  recs.

(** The grade expression of line 75. *)
Definition gradeOf (total : float) : Grade :=
  if (90 <=? total)%float then Excellent
  else if (75 <=? total)%float then Good
  else if (60 <=? total)%float then Fair
  else Poor.

(** ** [processDocument] *)

(** Lines 41-90 of [processDocument]: everything the function computes from
    [seed]. The operator [%] is the truncated remainder [Z.rem]. *)
Definition analysis (seed : Z) : ProcessingResult :=
  let vr : ValidationResult := {|
    projectProfile := {| geoCoordinates := true; timeline := negb (Z.rem seed 7 =? 0) |};
    beneficiary := {| sdgMpiAligned := negb (Z.rem seed 5 =? 0); kpisPresent := true |};
    financial := {| gstComponents := negb (Z.rem seed 3 =? 0);
                    omFourYears := negb (Z.rem seed 4 =? 0) |};
    technical := {| gatiShaktiAligned := negb (Z.rem seed 6 =? 0); sorBasis := true |};
    certificates := {| landAvailability := negb (Z.rem seed 8 =? 0);
                       nonDuplication := true |}
  |} in
  let completeness :=
    score [geoCoordinates (projectProfile vr); timeline (projectProfile vr);
           kpisPresent (beneficiary vr)] 30 in
  let compliance :=
    score [gstComponents (financial vr); omFourYears (financial vr);
           nonDuplication (certificates vr); landAvailability (certificates vr)] 25 in
  let technicalQuality :=
    score [gatiShaktiAligned (technical vr); sorBasis (technical vr)] 25 in
  let baseRisk := (Z2F (Z.rem seed 100) / 100)%float in
  let risk : RiskPrediction := {|
    costOverrunRisk :=
      clamp01 (baseRisk * 0.7 + (if omFourYears (financial vr) then 0 else 0.2))%float;
    delayRisk :=
      clamp01 (baseRisk * 0.6 + (if timeline (projectProfile vr) then 0 else 0.25))%float;
    implementationRisk :=
      clamp01 (baseRisk * 0.5 + (if gatiShaktiAligned (technical vr) then 0 else 0.2))%float
  |} in
  let impactSustainability :=
    Math_round
      ((1 - (costOverrunRisk risk + delayRisk risk + implementationRisk risk) / 3) * 20)%float in
  let totalRaw :=
    (completeness + compliance + technicalQuality + impactSustainability)%float in
  let total := Math_max 0 (Math_min 100 totalRaw) in
  let grade := gradeOf total in
  let scores : Scores := {|
    completeness := completeness; compliance := compliance;
    technicalQuality := technicalQuality; impactSustainability := impactSustainability;
    total := total; grade := grade
  |} in
  let sizeCheckOk := Z.rem seed 2 =? 0 in
  let eligibility : Eligibility := {|
    sizeCheckOk := sizeCheckOk; outOfRange := Some (negb sizeCheckOk);
    negativeList := Z.rem seed 9 =? 0
  |} in
  let flags : ConsistencyFlags := {|
    budgetMismatch := Z.rem seed 4 =? 0;
    timelineIssues := negb (timeline (projectProfile vr));
    missingData := Z.rem seed 6 =? 0;
    ineligibleSector := if negativeList eligibility then Some true else None
  |} in
  let recommendations := buildRecommendations scores flags risk in
  {| validation := vr; scores := scores; eligibility := eligibility;
     flags := flags; risk := risk; recommendations := recommendations |}.

(** [{ ...d, status: "completed" }]. *)
Definition mark_completed (d : DPRFile) : DPRFile :=
  {| dpr_id := dpr_id d; filename := filename d; uploadedAt := uploadedAt d;
     dpr_language := dpr_language d; status := completed; sizeBytes := sizeBytes d |}.

(** [processDocument({ uploadId, language })], lines 33-94. The function has
    no [throw] and calls nothing that throws: its promise is fulfilled. *)
Definition processDocument (st : Store) (uploadId : string) (language : LanguageOption)
    : Store * Settled ProcessingResult :=
  let seed := hash (uploadId ++ language_string language)%string in
  let result := analysis seed in
  let st' := {|
    resultsMap := <[uploadId := result]> (resultsMap st);
    dprs := List.map (fun d => if String.eqb (dpr_id d) uploadId then mark_completed d else d)
                (dprs st)
  |} in
  (st', Fulfilled result).

(** ** The other functions of [api.ts] *)

(** *** String methods

    [toLowerCase], [trim] and [includes] on strings of 8-bit code units.
    Among the code units below 256 the upper-case letters are [A]-[Z] and
    U+00C0-U+00DE without U+00D7, each 32 below its lower-case form; the
    white space and line terminators are U+0009-U+000D, U+0020 and
    U+00A0. *)

Definition toLowerCase_unit (c : ascii) : ascii :=
  let n := nat_of_ascii c in
  if ((65 <=? n) && (n <=? 90) || (192 <=? n) && (n <=? 214)
      || (216 <=? n) && (n <=? 222))%nat
  then ascii_of_nat (n + 32) else c.

Fixpoint toLowerCase (s : string) : string :=
  match s with
  | EmptyString => EmptyString
  | String c s' => String (toLowerCase_unit c) (toLowerCase s')
  end.

Definition isWhiteSpace (c : ascii) : bool :=
  let n := nat_of_ascii c in
  ((9 <=? n) && (n <=? 13) || (n =? 32) || (n =? 160))%nat.

Fixpoint trimStart (s : string) : string :=
  match s with
  | EmptyString => EmptyString
  | String c s' => if isWhiteSpace c then trimStart s' else s
  end.

Fixpoint trimEnd (s : string) : string :=
  match s with
  | EmptyString => EmptyString
  | String c s' =>
      match trimEnd s' with
      | EmptyString => if isWhiteSpace c then EmptyString else String c EmptyString
      | t => String c t
      end
  end.

Definition trim (s : string) : string := trimEnd (trimStart s).

(** [s.includes(q)]: [q] occurs in [s] at some position. *)
Fixpoint includes (s q : string) : bool :=
  String.prefix q s
  || match s with
     | EmptyString => false
     | String _ s' => includes s' q
     end.

(** *** [uploadFile], [listDPRs], [getResults], [getJSON] *)



(** The argument [opts?: { q?: string }] of [listDPRs]. *)
Record ListOptions : Type := { opt_q : option string }.

(** [listDPRs(opts)], lines 96-101; [!q] holds when [q] is [undefined] or
    the empty string. The call does not change the module state. *)
Definition listDPRs (st : Store) (opts : option ListOptions) : list DPRFile :=
  let q := match opts with
           | Some o => match opt_q o with
                       | Some s => Some (trim (toLowerCase s))
                       | None => None
                       end
           | None => None
           end in
  match q with
  | None => dprs st
  | Some q =>
      if String.eqb q EmptyString then dprs st
      else List.filter (fun d => includes (toLowerCase (filename d)) q) (dprs st)
  end.



(** ** Definitions used to state the properties *)

(** The value of the hash before wrap-around: the polynomial
    [c_0 * 31^(n-1) + ... + c_(n-1)] in the character codes. *)
Fixpoint poly31 (s : string) : Z :=
  match s with
  | EmptyString => 0
  | String c s' => charCode c * 31 ^ Z.of_nat (String.length s') + poly31 s'
  end.

(** [q] occurs in [s]: the meaning of [includes]. *)
Definition occurs_in (q s : string) : Prop :=
  exists a b : string, s = (a ++ q ++ b)%string.

(** The residues [0, 1, ..., n-1]. *)
Definition residues (n : nat) : list Z := List.map Z.of_nat (seq 0 n).

(** [lo <= x <= hi] on doubles, as the comparisons of the code decide it. *)
Definition within (lo x hi : float) : bool := ((lo <=? x) && (x <=? hi))%float.

(** [x] is one of the integers [0, 1, ..., n-1]. *)
Definition integer_below (n : nat) (x : float) : bool :=
  existsb (fun k => PrimFloat.Leibniz.eqb x (Z2F k)) (residues n).

(** The recommendation engine in the words of the specification: a fixed
    ordered list of (predicate, message) rules; every rule whose predicate
    holds emits its message, in the order of the list, and when no rule
    fires the single fallback message is emitted. *)
Definition Rule : Type := (Scores -> ConsistencyFlags -> RiskPrediction -> bool) * string.

Definition recommendation_rules : list Rule :=
  [ (fun _ f _ => budgetMismatch f,
     "Review budget allocations to resolve mismatches against scope.");
    (fun _ f _ => timelineIssues f,
     "Adjust project timeline to reflect realistic milestones.");
    (fun _ f _ => missingData f,
     "Provide missing documentation and KPI evidence.");
    (fun _ _ r => (0.5 <? delayRisk r)%float,
     "Increase monitoring cadence and add buffer for critical path items.");
    (fun s _ _ => (compliance s <? 20)%float,
     "Ensure GST, O&M, and certificates are fully documented.");
    (fun s _ _ => (technicalQuality s <? 18)%float,
     "Align design with GatiShakti and SOR standards.") ].

Definition fallback_recommendation : string :=
  "Project is in strong shape. Proceed to approval with standard oversight.".

Definition recommend_spec
    (s : Scores) (f : ConsistencyFlags) (r : RiskPrediction) : list string :=
  let fired := List.map snd (List.filter (fun rule : Rule => fst rule s f r)
                                         recommendation_rules) in
  match fired with
  | [] => [fallback_recommendation]
  | _ :: _ => fired
  end.

(** The tiers in increasing order of merit. *)
Definition grade_rank (g : Grade) : nat :=
  match g with
  | Poor => 0
  | Fair => 1
  | Good => 2
  | Excellent => 3
  end.

(** The scorer in the words of the specification, in exact arithmetic:
    [round (max_score * (count_true / count_total))] with ties rounded up,
    and [0] when [count_total = 0]. *)
Definition count_true (flags : list bool) : Z :=
  Z.of_nat (length (List.filter (fun f : bool => f) flags)).

Definition count_total (flags : list bool) : Z := Z.of_nat (length flags).

(** [floor (num / den + 1/2)] for [den > 0]. *)
Definition round_half_up (num den : Z) : Z := (2 * num + den) / (2 * den).

Definition score_spec (flags : list bool) (max_score : Z) : Z :=
  if count_total flags =? 0 then 0
  else round_half_up (max_score * count_true flags) (count_total flags).

(** The module state before any upload. *)
Definition emptyStore : Store := {| dprs := []; resultsMap := empty |}.

(** ** Supporting lemmas *)

(** *** The code on concrete inputs *)

Example hash_abcdefghEN : hash "abcdefghEN" = 634318803.
Proof. reflexivity. Qed.

(** 12.5 is rounded up, 6.25 down. *)
Example score_one_of_two : score [false; true] 25 = 13%float.
Proof. reflexivity. Qed.

Example score_one_of_four : score [false; false; true; false] 25 = 6%float.
Proof. reflexivity. Qed.

(** Seed 84 is a multiple of 4, 6 and 7: the three penalties apply. *)
Example risk_of_seed_84 :
  risk (analysis 84)
  = {| costOverrunRisk := 0.788; delayRisk := 0.754; implementationRisk := 0.62 |}.
Proof. reflexivity. Qed.

Example scores_of_seed_84 :
  scores (analysis 84)
  = {| completeness := 20; compliance := 13; technicalQuality := 13;
       impactSustainability := 6; total := 52; grade := Poor |}.
Proof. reflexivity. Qed.

Example recommendations_of_seed_1 :
  recommendations (analysis 1) = [fallback_recommendation].
Proof. reflexivity. Qed.

(** *** The seed *)

Lemma hash_nonneg (s : string) : 0 <= hash s.
Proof. unfold hash, Math_abs. apply Z.abs_nonneg. Qed.

Lemma ToInt32_range (z : Z) : - 2 ^ 31 <= ToInt32 z < 2 ^ 31.
Proof.
  unfold ToInt32.
  pose proof (Z.mod_pos_bound (z + 2 ^ 31) (2 ^ 32) ltac:(lia)). lia.
Qed.

Lemma hash_loop_range (s : string) (h : Z) :
  - 2 ^ 31 <= h < 2 ^ 31 -> - 2 ^ 31 <= hash_loop s h < 2 ^ 31.
Proof.
  revert h. induction s as [|c s IH]; intros h Hh; simpl.
  - exact Hh.
  - apply IH, ToInt32_range.
Qed.

Lemma hash_range (s : string) : 0 <= hash s <= 2 ^ 31.
Proof.
  pose proof (hash_loop_range s 0 ltac:(lia)).
  unfold hash, Math_abs. lia.
Qed.

(** *** Finite case analysis

    The risks read the seed through [seed % 100] and three checks, so a
    property of them is decided by running the code on the 100 residues for
    each value of the checks. *)

Lemma in_residues (n : nat) (z : Z) : 0 <= z < Z.of_nat n -> In z (residues n).
Proof.
  intros Hz. unfold residues. apply in_map_iff.
  exists (Z.to_nat z). split; [lia | apply in_seq; lia].
Qed.

Lemma forall_residue (n : nat) (P : Z -> bool) :
  forallb P (residues n) = true -> forall r, 0 <= r < Z.of_nat n -> P r = true.
Proof.
  intros Hall r Hr. rewrite forallb_forall in Hall. apply Hall, in_residues, Hr.
Qed.

Lemma rem_100_bound (seed : Z) : 0 <= seed -> 0 <= Z.rem seed 100 < Z.of_nat 100.
Proof. intros Hs. pose proof (Z.rem_bound_pos seed 100 Hs ltac:(lia)). lia. Qed.

Lemma integer_below_spec (n : nat) (x : float) :
  integer_below n x = true -> exists k, 0 <= k < Z.of_nat n /\ x = Z2F k.
Proof.
  unfold integer_below, residues. intros H.
  apply existsb_exists in H. destruct H as (k & Hin & Hk).
  apply in_map_iff in Hin. destruct Hin as (i & <- & Hi). apply in_seq in Hi.
  apply FloatAxioms.Leibniz.eqb_spec in Hk.
  exists (Z.of_nat i). split; [lia | exact Hk].
Qed.

(** What a call returns and what it leaves in the store. *)
Lemma processDocument_eq (st : Store) (uploadId : string) (language : LanguageOption) :
  processDocument st uploadId language =
  ({| dprs := List.map (fun d => if String.eqb (dpr_id d) uploadId
                                 then mark_completed d else d) (dprs st);
      resultsMap := <[uploadId := analysis (hash (uploadId ++ language_string language))]>
                      (resultsMap st) |},
   Fulfilled (analysis (hash (uploadId ++ language_string language)))).
Proof. reflexivity. Qed.

(** *** The order of the doubles

    The comparisons [<?] and [<=?] of the primitive doubles are specified by
    [SFcompare] on their decoded form; on that form the order is
    lexicographic in (class and sign, exponent, mantissa). *)

Module FloatOrder.

Lemma compare_cont_Eq (p q : positive) : Pos.compare_cont Eq p q = (p ?= q)%positive.
Proof. reflexivity. Qed.

Ltac cases_compare :=
  repeat match goal with
    | H : context [Pos.compare_cont Eq ?p ?q] |- _ => rewrite (compare_cont_Eq p q) in H
    | |- context [Pos.compare_cont Eq ?p ?q] => rewrite (compare_cont_Eq p q)
    end;
  repeat match goal with
    | H : context [(?a ?= ?b)%Z] |- _ => destruct (Z.compare_spec a b); simpl in H
    | |- context [(?a ?= ?b)%Z] => destruct (Z.compare_spec a b); simpl
    | H : context [(?a ?= ?b)%positive] |- _ => destruct (Pos.compare_spec a b); simpl in H
    | |- context [(?a ?= ?b)%positive] => destruct (Pos.compare_spec a b); simpl
    end;
  try discriminate; try reflexivity; try lia.

Lemma SFleb_trans (x y z : spec_float) :
  SFleb x y = true -> SFleb y z = true -> SFleb x z = true.
Proof.
  unfold SFleb.
  destruct x as [sx|sx| |sx mx ex], y as [sy|sy| |sy my ey], z as [sz|sz| |sz mz ez];
    simpl; try discriminate; try reflexivity;
    repeat match goal with s : bool |- _ => destruct s end;
    simpl; try discriminate; try reflexivity; intros H1 H2; cases_compare.
Qed.

Lemma SFltb_leb_trans (x y z : spec_float) :
  SFltb x y = true -> SFleb y z = true -> SFltb x z = true.
Proof.
  unfold SFleb, SFltb.
  destruct x as [sx|sx| |sx mx ex], y as [sy|sy| |sy my ey], z as [sz|sz| |sz mz ez];
    simpl; try discriminate; try reflexivity;
    repeat match goal with s : bool |- _ => destruct s end;
    simpl; try discriminate; try reflexivity; intros H1 H2; cases_compare.
Qed.

Lemma SFleb_ltb_trans (x y z : spec_float) :
  SFleb x y = true -> SFltb y z = true -> SFltb x z = true.
Proof.
  unfold SFleb, SFltb.
  destruct x as [sx|sx| |sx mx ex], y as [sy|sy| |sy my ey], z as [sz|sz| |sz mz ez];
    simpl; try discriminate; try reflexivity;
    repeat match goal with s : bool |- _ => destruct s end;
    simpl; try discriminate; try reflexivity; intros H1 H2; cases_compare.
Qed.

Lemma SFltb_leb (x y : spec_float) : SFltb x y = true -> SFleb x y = true.
Proof.
  unfold SFleb, SFltb. destruct (SFcompare x y) as [[| |]|]; congruence.
Qed.

(** Two comparable values are ordered one way or the other. *)
Lemma SFleb_total (x y : spec_float) :
  x <> S754_nan -> y <> S754_nan -> SFleb x y = false -> SFltb y x = true.
Proof.
  unfold SFleb, SFltb.
  destruct x as [sx|sx| |sx mx ex], y as [sy|sy| |sy my ey];
    simpl; try congruence;
    repeat match goal with s : bool |- _ => destruct s end;
    simpl; try discriminate; try reflexivity; intros _ _ H1; cases_compare.
Qed.

Lemma SFleb_false_of_ltb (x y : spec_float) : SFltb y x = true -> SFleb x y = false.
Proof.
  unfold SFleb, SFltb.
  destruct x as [sx|sx| |sx mx ex], y as [sy|sy| |sy my ey];
    simpl; try congruence;
    repeat match goal with s : bool |- _ => destruct s end;
    simpl; try discriminate; try reflexivity; intros H1; cases_compare.
Qed.


Local Open Scope float_scope.

Lemma leb_trans (x y z : float) :
  (x <=? y) = true -> (y <=? z) = true -> (x <=? z) = true.
Proof. rewrite !FloatAxioms.leb_spec. apply SFleb_trans. Qed.

Lemma ltb_leb_trans (x y z : float) :
  (x <? y) = true -> (y <=? z) = true -> (x <? z) = true.
Proof. rewrite !FloatAxioms.leb_spec, !FloatAxioms.ltb_spec. apply SFltb_leb_trans. Qed.

Lemma leb_ltb_trans (x y z : float) :
  (x <=? y) = true -> (y <? z) = true -> (x <? z) = true.
Proof. rewrite !FloatAxioms.leb_spec, !FloatAxioms.ltb_spec. apply SFleb_ltb_trans. Qed.

Lemma ltb_leb (x y : float) : (x <? y) = true -> (x <=? y) = true.
Proof. rewrite FloatAxioms.leb_spec, FloatAxioms.ltb_spec. apply SFltb_leb. Qed.

Lemma ltb_not_leb (x y : float) : (y <? x) = true -> (x <=? y) = false.
Proof. rewrite FloatAxioms.leb_spec, FloatAxioms.ltb_spec. apply SFleb_false_of_ltb. Qed.

Lemma is_nan_spec (x : float) : is_nan x = false <-> Prim2SF x <> S754_nan.
Proof.
  unfold is_nan. rewrite FloatAxioms.eqb_spec. unfold SFeqb.
  destruct (Prim2SF x) as [s|s| |s m e]; simpl.
  - split; [discriminate | reflexivity].
  - destruct s; (split; [discriminate | reflexivity]).
  - split; [discriminate | congruence].
  - destruct s; rewrite Z.compare_refl, compare_cont_Eq, Pos.compare_refl;
      simpl; (split; [discriminate | reflexivity]).
Qed.

Lemma not_leb_ltb (x y : float) :
  is_nan x = false -> is_nan y = false -> (x <=? y) = false -> (y <? x) = true.
Proof.
  rewrite !is_nan_spec, FloatAxioms.leb_spec, FloatAxioms.ltb_spec. apply SFleb_total.
Qed.

Lemma leb_not_nan (x y : float) :
  (x <=? y) = true -> is_nan x = false /\ is_nan y = false.
Proof.
  rewrite !is_nan_spec, FloatAxioms.leb_spec. unfold SFleb.
  destruct (Prim2SF x), (Prim2SF y); simpl; try discriminate;
    intros _; split; discriminate.
Qed.

End FloatOrder.

(** *** [clamp01] on every double that is not NaN *)

Lemma Math_min_1 (x : float) :
  PrimFloat.is_nan x = false ->
  PrimFloat.is_nan (Math_min 1 x) = false /\ (Math_min 1 x <=? 1)%float = true.
Proof.
  intros Hx. unfold Math_min.
  change (PrimFloat.is_nan 1) with false. rewrite Hx. simpl orb.
  change (PrimFloat.get_sign 1) with false.
  destruct (1 <? x)%float eqn:H1; [split; reflexivity |].
  destruct (x <? 1)%float eqn:H2.
  - split; [exact Hx | apply FloatOrder.ltb_leb, H2].
  - split; [exact Hx |].
    destruct (x <=? 1)%float eqn:H3; [reflexivity |].
    apply FloatOrder.not_leb_ltb in H3; [congruence | exact Hx | reflexivity].
Qed.

Lemma Math_max_0 (m : float) :
  PrimFloat.is_nan m = false -> (m <=? 1)%float = true ->
  (0 <=? Math_max 0 m)%float = true /\ (Math_max 0 m <=? 1)%float = true.
Proof.
  intros Hm H1. unfold Math_max.
  change (PrimFloat.is_nan 0) with false. rewrite Hm. simpl orb.
  change (PrimFloat.get_sign 0) with false.
  destruct (0 <? m)%float eqn:H2.
  - split; [apply FloatOrder.ltb_leb, H2 | exact H1].
  - destruct (m <? 0)%float; split; reflexivity.
Qed.

(** [clamp01] maps every double other than NaN into [[0, 1]]. *)
Lemma clamp01_range (x : float) :
  PrimFloat.is_nan x = false ->
  (0 <=? clamp01 x)%float = true /\ (clamp01 x <=? 1)%float = true.
Proof.
  intros Hx. destruct (Math_min_1 x Hx) as [Hn H1].
  unfold clamp01. apply Math_max_0; assumption.
Qed.

(** ** Properties of the pipeline *)

Lemma within_true (lo x hi : float) :
  within lo x hi = true -> (lo <=? x)%float = true /\ (x <=? hi)%float = true.
Proof. unfold within. intros H. apply andb_true_iff in H. exact H. Qed.

(** The three risks lie in [[0, 1]] and the impact score is one of the
    integers 0, ..., 20: checked on the 100 values of [seed % 100] for each
    value of the three checks the risks read. *)
Lemma risk_and_impact (seed : Z) :
  0 <= seed ->
  let r := analysis seed in
  within 0 (costOverrunRisk (risk r)) 1
  && within 0 (delayRisk (risk r)) 1
  && within 0 (implementationRisk (risk r)) 1
  && integer_below 21 (impactSustainability (scores r)) = true.
Proof.
  intros Hs. pose proof (rem_100_bound seed Hs) as Hr.
  unfold analysis.
  cbn [risk scores costOverrunRisk delayRisk implementationRisk impactSustainability
       validation projectProfile financial technical timeline omFourYears
       gatiShaktiAligned].
  revert Hr.
  generalize (negb (Z.rem seed 4 =? 0)), (negb (Z.rem seed 7 =? 0)),
    (negb (Z.rem seed 6 =? 0)), (Z.rem seed 100).
  intros om tl gs r Hr. revert r Hr.
  destruct om, tl, gs; apply forall_residue; vm_compute; reflexivity.
Qed.

(** The three boolean scores on the lists [processDocument] passes, and
    the clamped total for every integer impact score. *)
Lemma score_ranges (tl gst om lnd gs : bool) (k : Z) :
  0 <= k < Z.of_nat 21 ->
  within 0 (score [true; tl; true] 30) 30
  && within 0 (score [gst; om; true; lnd] 25) 25
  && within 0 (score [gs; true] 25) 25
  && within 0 (Z2F k) 20
  && within 0 (Math_max 0 (Math_min 100
       (score [true; tl; true] 30 + score [gst; om; true; lnd] 25
        + score [gs; true] 25 + Z2F k)%float)) 100 = true.
Proof.
  revert k. destruct tl, gst, om, lnd, gs; apply forall_residue; vm_compute; reflexivity.
Qed.

Lemma scores_shape (seed : Z) :
  let vr := validation (analysis seed) in
  let s := scores (analysis seed) in
  completeness s = score [true; timeline (projectProfile vr); true] 30 /\
  compliance s = score [gstComponents (financial vr); omFourYears (financial vr); true;
                        landAvailability (certificates vr)] 25 /\
  technicalQuality s = score [gatiShaktiAligned (technical vr); true] 25 /\
  total s = Math_max 0 (Math_min 100
              (completeness s + compliance s + technicalQuality s
               + impactSustainability s)%float).
Proof. cbv zeta. split; [|split; [|split]]; reflexivity. Qed.

(** C4: for every input, completeness, compliance, technicalQuality and
    impactSustainability lie between 0 and their maxima 30, 25, 25 and 20,
    and the total, which is the raw sum of the four sub-scores clamped into
    [[0, 100]], lies between 0 and 100 inclusive. *)
Theorem scores_bounded (st : Store) (uploadId : string) (language : LanguageOption) :
  exists st' r,
    processDocument st uploadId language = (st', Fulfilled r) /\
    ((0 <=? completeness (scores r))%float = true
     /\ (completeness (scores r) <=? 30)%float = true) /\
    ((0 <=? compliance (scores r))%float = true
     /\ (compliance (scores r) <=? 25)%float = true) /\
    ((0 <=? technicalQuality (scores r))%float = true
     /\ (technicalQuality (scores r) <=? 25)%float = true) /\
    ((0 <=? impactSustainability (scores r))%float = true
     /\ (impactSustainability (scores r) <=? 20)%float = true) /\
    ((0 <=? total (scores r))%float = true
     /\ (total (scores r) <=? 100)%float = true) /\
    total (scores r) =
      Math_max 0 (Math_min 100 (completeness (scores r) + compliance (scores r)
                                + technicalQuality (scores r)
                                + impactSustainability (scores r))%float).
Proof.
  rewrite processDocument_eq. do 2 eexists. split; [reflexivity |].
  pose proof (hash_nonneg (uploadId ++ language_string language)) as Hs.
  revert Hs. generalize (hash (uploadId ++ language_string language)). intros seed Hs.
  pose proof (risk_and_impact seed Hs) as H. cbv zeta in H.
  apply andb_true_iff in H. destruct H as [_ H].
  apply integer_below_spec in H. destruct H as (k & Hk & Ek).
  destruct (scores_shape seed) as (Ec & Ep & Et & Es).
  pose proof (score_ranges (timeline (projectProfile (validation (analysis seed))))
                (gstComponents (financial (validation (analysis seed))))
                (omFourYears (financial (validation (analysis seed))))
                (landAvailability (certificates (validation (analysis seed))))
                (gatiShaktiAligned (technical (validation (analysis seed)))) k Hk) as R.
  rewrite <- Ec, <- Ep, <- Et, <- Ek, <- Es in R.
  rewrite !andb_true_iff in R. destruct R as [[[[Hc Hp] Ht] Hi] Hsum].
  apply within_true in Hc, Hp, Ht, Hi, Hsum.
  split; [exact Hc |]. split; [exact Hp |]. split; [exact Ht |].
  split; [exact Hi |]. split; [exact Hsum | exact Es].
Qed.

(** C7: each of the three risks is [clamp01 (base_risk * weight + penalty)]
    with [base_risk] computed from the hash of the document identifier and
    the language, weights 0.7 (cost overrun), 0.6 (delay) and 0.5
    (implementation), a penalty of 0.2, 0.25 and 0.2 added only when the O&M
    plan, the timeline and the GatiShakti alignment respectively are absent,
    and every risk lies in [[0, 1]]. *)
Theorem risk_formula_and_range (st : Store) (uploadId : string) (language : LanguageOption) :
  exists st' r,
    processDocument st uploadId language = (st', Fulfilled r) /\
    let base_risk :=
      (Z2F (Z.rem (hash (uploadId ++ language_string language)) 100) / 100)%float in
    costOverrunRisk (risk r) =
      clamp01 (base_risk * 0.7
               + (if omFourYears (financial (validation r)) then 0 else 0.2))%float /\
    delayRisk (risk r) =
      clamp01 (base_risk * 0.6
               + (if timeline (projectProfile (validation r)) then 0 else 0.25))%float /\
    implementationRisk (risk r) =
      clamp01 (base_risk * 0.5
               + (if gatiShaktiAligned (technical (validation r)) then 0 else 0.2))%float /\
    ((0 <=? costOverrunRisk (risk r))%float = true
     /\ (costOverrunRisk (risk r) <=? 1)%float = true) /\
    ((0 <=? delayRisk (risk r))%float = true
     /\ (delayRisk (risk r) <=? 1)%float = true) /\
    ((0 <=? implementationRisk (risk r))%float = true
     /\ (implementationRisk (risk r) <=? 1)%float = true).
Proof.
  rewrite processDocument_eq. do 2 eexists. split; [reflexivity |].
  pose proof (risk_and_impact _ (hash_nonneg (uploadId ++ language_string language)))
    as H.
  cbv zeta in H. rewrite !andb_true_iff in H.
  destruct H as [[[Hc Hd] Hi] _].
  apply within_true in Hc, Hd, Hi.
  cbv zeta. split; [reflexivity |]. split; [reflexivity |]. split; [reflexivity |].
  split; [exact Hc |]. split; [exact Hd | exact Hi].
Qed.

(** C8: in every result, [eligibility.outOfRange] is the negation of
    [eligibility.sizeCheckOk]. *)
Theorem outOfRange_is_negation (st : Store) (uploadId : string) (language : LanguageOption) :
  exists st' r,
    processDocument st uploadId language = (st', Fulfilled r) /\
    outOfRange (eligibility r) = Some (negb (sizeCheckOk (eligibility r))).
Proof.
  rewrite processDocument_eq. do 2 eexists. split; reflexivity.
Qed.

(** C10: for every uploadId and language the result reports
    [projectProfile.geoCoordinates], [beneficiary.kpisPresent],
    [technical.sorBasis] and [certificates.nonDuplication] as true, so that
    completeness is at least 20 (of 30) and technicalQuality at least 13
    (of 25). *)
Theorem fixed_checks_always_true (st : Store) (uploadId : string) (language : LanguageOption) :
  exists st' r,
    processDocument st uploadId language = (st', Fulfilled r) /\
    geoCoordinates (projectProfile (validation r)) = true /\
    kpisPresent (beneficiary (validation r)) = true /\
    sorBasis (technical (validation r)) = true /\
    nonDuplication (certificates (validation r)) = true /\
    (20 <=? completeness (scores r))%float = true /\
    (13 <=? technicalQuality (scores r))%float = true.
Proof.
  rewrite processDocument_eq. do 2 eexists. split; [reflexivity |].
  generalize (hash (uploadId ++ language_string language)). intros seed.
  split; [reflexivity |]. split; [reflexivity |].
  split; [reflexivity |]. split; [reflexivity |]. split.
  - change (completeness (scores (analysis seed)))
      with (score [true; negb (Z.rem seed 7 =? 0); true] 30).
    destruct (Z.rem seed 7 =? 0); vm_compute; reflexivity.
  - change (technicalQuality (scores (analysis seed)))
      with (score [negb (Z.rem seed 6 =? 0); true] 25).
    destruct (Z.rem seed 6 =? 0); vm_compute; reflexivity.
Qed.

(** C2: two calls with the same uploadId and the same language return the
    same [ProcessingResult] (hence the same validation booleans, scores,
    grade, eligibility, flags, risks and recommendations in the same order),
    whatever the module state of each call is, in particular when the second
    call runs in the state left by the first. *)
Theorem processDocument_deterministic
    (st1 st2 : Store) (uploadId : string) (language : LanguageOption) :
  exists r,
    snd (processDocument st1 uploadId language) = Fulfilled r /\
    snd (processDocument st2 uploadId language) = Fulfilled r /\
    snd (processDocument (fst (processDocument st1 uploadId language)) uploadId language)
      = Fulfilled r.
Proof.
  exists (analysis (hash (uploadId ++ language_string language))).
  rewrite !processDocument_eq. repeat split.
Qed.

(** *** The recommendation engine *)

(** C9: [buildRecommendations] evaluates the ordered rules budget mismatch,
    timeline issues, missing data, [delayRisk > 0.5], [compliance < 20],
    [technicalQuality < 18], emits one message per rule that holds in that
    order, emits exactly the fallback message when none holds, and so always
    returns a list of length at least 1. *)
Theorem buildRecommendations_rules
    (s : Scores) (f : ConsistencyFlags) (r : RiskPrediction) :
  buildRecommendations s f r = recommend_spec s f r /\
  (1 <= length (buildRecommendations s f r))%nat.
Proof.
  assert (E : buildRecommendations s f r = recommend_spec s f r).
  { unfold buildRecommendations, recommend_spec, recommendation_rules, push.
    cbn [List.filter List.map fst snd].
    generalize (budgetMismatch f), (timelineIssues f), (missingData f),
      (0.5 <? delayRisk r)%float, (compliance s <? 20)%float,
      (technicalQuality s <? 18)%float.
    intros [] [] [] [] [] []; reflexivity. }
  split; [exact E |].
  rewrite E. unfold recommend_spec.
  destruct (List.map snd _) as [|m fired]; simpl; lia.
Qed.

(** *** Grades *)

Lemma threshold_order :
  (60 <=? 75)%float = true /\ (75 <=? 90)%float = true.
Proof. split; reflexivity. Qed.

(** A total at or above a threshold and below a higher one. *)
Lemma band_iff (lo hi t : float) :
  (lo <=? hi)%float = true ->
  ((lo <=? t)%float = true /\ (hi <=? t)%float = false)
  <-> ((lo <=? t)%float = true /\ (t <? hi)%float = true).
Proof.
  intros Hlh. split; intros [Hlo Hhi]; (split; [exact Hlo |]).
  - destruct (FloatOrder.leb_not_nan _ _ Hlo) as [_ Ht].
    destruct (FloatOrder.leb_not_nan _ _ Hlh) as [_ Hh].
    apply FloatOrder.not_leb_ltb; assumption.
  - apply FloatOrder.ltb_not_leb, Hhi.
Qed.

(** C5: with [max_total = 100] the grade breakpoints are 90, 75 and 60 per
    cent of the maximum, inclusive on the lower bound: a total of at least 90
    is Excellent, of at least 75 (and below 90) Good, of at least 60 (and
    below 75) Fair, anything else Poor; exactly 90 is Excellent; and the
    grade of every result is the grade of its total. *)
Theorem grade_thresholds
    (st : Store) (uploadId : string) (language : LanguageOption) (t : float) :
  (gradeOf t = Excellent <-> (90 <=? t)%float = true) /\
  (gradeOf t = Good <-> ((75 <=? t)%float = true /\ (t <? 90)%float = true)) /\
  (gradeOf t = Fair <-> ((60 <=? t)%float = true /\ (t <? 75)%float = true)) /\
  (gradeOf t = Poor <-> (60 <=? t)%float = false) /\
  gradeOf 90 = Excellent /\
  exists st' r,
    processDocument st uploadId language = (st', Fulfilled r) /\
    grade (scores r) = gradeOf (total (scores r)).
Proof.
  destruct threshold_order as [H6075 H7590].
  assert (H90 : (90 <=? t)%float = true -> (75 <=? t)%float = true)
    by (apply FloatOrder.leb_trans, H7590).
  assert (H75 : (75 <=? t)%float = true -> (60 <=? t)%float = true)
    by (apply FloatOrder.leb_trans, H6075).
  assert (G : exists st' r,
             processDocument st uploadId language = (st', Fulfilled r) /\
             grade (scores r) = gradeOf (total (scores r))).
  { rewrite processDocument_eq. do 2 eexists. split; reflexivity. }
  revert G. generalize (processDocument st uploadId language). intros out G.
  rewrite <- (band_iff 75 90 t H7590), <- (band_iff 60 75 t H6075).
  unfold gradeOf at 1 2 3 4 5.
  destruct (90 <=? t)%float eqn:E90, (75 <=? t)%float eqn:E75,
    (60 <=? t)%float eqn:E60;
    try (specialize (H90 eq_refl); discriminate);
    try (specialize (H75 eq_refl); discriminate).
  all: split; [split; congruence |].
  all: split; [split; [intros; split; congruence | intros [? ?]; congruence] |].
  all: split; [split; [intros; split; congruence | intros [? ?]; congruence] |].
  all: split; [split; congruence |].
  all: split; [reflexivity | exact G].
Qed.

Ltac threshold_passed :=
  match goal with
  | Hlt : (?t2 <? ?t1)%float = true,
    H2 : (?c <=? ?t2)%float = true,
    H1 : (?c <=? ?t1)%float = false |- _ =>
      pose proof (FloatOrder.ltb_leb _ _ (FloatOrder.leb_ltb_trans _ _ _ H2 Hlt));
      congruence
  end.

(** C6: grading is monotone: when [total1 > total2], the grade of [total1]
    is never a worse tier than the grade of [total2]. *)
Theorem grade_monotone (total1 total2 : float) :
  (total2 <? total1)%float = true ->
  (grade_rank (gradeOf total2) <= grade_rank (gradeOf total1))%nat.
Proof.
  intros Hlt. unfold gradeOf.
  destruct (90 <=? total2)%float eqn:A2, (90 <=? total1)%float eqn:A1;
    try threshold_passed; simpl; try lia;
    destruct (75 <=? total2)%float eqn:B2, (75 <=? total1)%float eqn:B1;
    try threshold_passed; simpl; try lia;
    destruct (60 <=? total2)%float eqn:C2, (60 <=? total1)%float eqn:C1;
    try threshold_passed; simpl; lia.
Qed.

Lemma grade_monotone_witness :
  (89 <? 90)%float = true /\
  (grade_rank (gradeOf 89) <= grade_rank (gradeOf 90))%nat.
Proof.
  split; [reflexivity | apply (grade_monotone 90 89); reflexivity].
Defined.

(** *** The criterion scorer *)

Lemma reduce_count (flags : list bool) (acc : Z) :
  fold_left (fun acc (f : bool) => acc + (if f then 1 else 0)) flags acc
  = acc + count_true flags.
Proof.
  revert acc. induction flags as [|f flags IH]; intros acc.
  - unfold count_true. simpl. lia.
  - simpl fold_left. rewrite IH. unfold count_true. destruct f; simpl length; lia.
Qed.

Lemma mul_nan_l (x : float) : (PrimFloat.nan * x)%float = PrimFloat.nan.
Proof. apply Prim2SF_inj. rewrite FloatAxioms.mul_spec. reflexivity. Qed.

(** C3 as stated fails on the empty check list: [score] divides 0 by 0 and
    returns NaN, not 0. *)
Lemma score_empty_is_nan :
  score [] 30 = PrimFloat.nan /\ score [] 30 <> Z2F (score_spec [] 30).
Proof.
  split; [reflexivity |].
  intros H. apply (f_equal PrimFloat.is_nan) in H. vm_compute in H. discriminate.
Qed.

(** C3 (amended): [score] computes
    [Math.round ((count_true / count_total) * max_score)]; on the three
    checks of Completeness (maximum 30), the four checks of Compliance
    (maximum 25) and the two checks of technical quality (maximum 25), which
    are the lists [processDocument] passes, this is the exact
    [round (max_score * count_true / count_total)]; there is no case for
    [count_total = 0], where the quotient 0/0 makes the score NaN. *)
Theorem score_formula :
  (forall flags outOf,
     score flags outOf
     = Math_round (Z2F (count_true flags) / Z2F (count_total flags) * outOf)%float) /\
  (forall a b c, score [a; b; c] 30 = Z2F (score_spec [a; b; c] 30)) /\
  (forall a b c d, score [a; b; c; d] 25 = Z2F (score_spec [a; b; c; d] 25)) /\
  (forall a b, score [a; b] 25 = Z2F (score_spec [a; b] 25)) /\
  (forall seed,
     let vr := validation (analysis seed) in
     completeness (scores (analysis seed))
     = score [geoCoordinates (projectProfile vr); timeline (projectProfile vr);
              kpisPresent (beneficiary vr)] 30 /\
     compliance (scores (analysis seed))
     = score [gstComponents (financial vr); omFourYears (financial vr);
              nonDuplication (certificates vr); landAvailability (certificates vr)] 25 /\
     technicalQuality (scores (analysis seed))
     = score [gatiShaktiAligned (technical vr); sorBasis (technical vr)] 25) /\
  (forall outOf, score [] outOf = PrimFloat.nan).
Proof.
  split; [| split; [| split; [| split; [| split]]]].
  - intros flags outOf. unfold score. rewrite reduce_count. reflexivity.
  - intros [] [] []; reflexivity.
  - intros [] [] [] []; reflexivity.
  - intros [] []; reflexivity.
  - intros seed. cbv zeta. split; [reflexivity |]. split; reflexivity.
  - intros outOf. unfold score. simpl fold_left. simpl length.
    change (Z2F 0 / Z2F (Z.of_nat 0))%float with PrimFloat.nan.
    rewrite mul_nan_l. reflexivity.
Qed.

(** *** Failure of a call *)

(** C1 as stated fails: for uploadId ["doc-8"] and language [EN] the seed is
    a multiple of 12, both Financial checks are false (the dimension has no
    evidence at all), and the call still returns a result; it is not
    rejected. *)
Lemma absent_financial_dimension_is_scored :
  hash "doc-8EN" = 1826715852 /\
  exists st' r,
    processDocument emptyStore "doc-8" EN = (st', Fulfilled r) /\
    gstComponents (financial (validation r)) = false /\
    omFourYears (financial (validation r)) = false /\
    forall reason, snd (processDocument emptyStore "doc-8" EN) <> Rejected reason.
Proof.
  split; [vm_compute; reflexivity |].
  rewrite processDocument_eq. do 2 eexists. split; [reflexivity |].
  split; [vm_compute; reflexivity |]. split; [vm_compute; reflexivity |].
  intros reason. discriminate.
Qed.

(** C1 (amended): [processDocument] never fails. For every store, uploadId
    and language its promise is fulfilled with a [ProcessingResult], which it
    also records in [resultsMap] under the uploadId, however many checks of a
    dimension are false; the code has no [InsufficientEvidenceError]. *)
Theorem processDocument_always_fulfilled
    (st : Store) (uploadId : string) (language : LanguageOption) :
  exists st' r,
    processDocument st uploadId language = (st', Fulfilled r) /\
    resultsMap st' !! uploadId = Some r /\
    forall reason, snd (processDocument st uploadId language) <> Rejected reason.
Proof.
  rewrite processDocument_eq. do 2 eexists. split; [reflexivity |].
  split; [apply lookup_insert_eq | intros reason; discriminate].
Qed.

(** ** Further properties of the helpers *)

(** *** [hash] *)

Lemma ToInt32_congr (a b : Z) : a mod 2 ^ 32 = b mod 2 ^ 32 -> ToInt32 a = ToInt32 b.
Proof.
  intros H. unfold ToInt32.
  rewrite (Z.add_mod a), (Z.add_mod b), H by lia. reflexivity.
Qed.

Lemma ToInt32_mod (a : Z) : ToInt32 a mod 2 ^ 32 = a mod 2 ^ 32.
Proof.
  unfold ToInt32.
  rewrite Zminus_mod, Z.mod_mod by lia.
  rewrite <- Zminus_mod. f_equal. lia.
Qed.

Lemma ToInt32_small (a : Z) : - 2 ^ 31 <= a < 2 ^ 31 -> ToInt32 a = a.
Proof. intros H. unfold ToInt32. rewrite Z.mod_small by lia. lia. Qed.

(** One step of the loop wraps only once. *)
Lemma hash_step (h c : Z) : ToInt32 (Math_imul 31 h + c) = ToInt32 (31 * h + c).
Proof.
  apply ToInt32_congr. unfold Math_imul.
  rewrite Z.add_mod, ToInt32_mod, <- Z.add_mod by lia. reflexivity.
Qed.

Lemma hash_loop_poly (s : string) (h : Z) :
  ToInt32 (hash_loop s h) = ToInt32 (h * 31 ^ Z.of_nat (String.length s) + poly31 s).
Proof.
  revert h. induction s as [|c s IH]; intros h.
  - cbn [hash_loop poly31 String.length]. f_equal. change (Z.of_nat 0) with 0. lia.
  - cbn [hash_loop poly31 String.length]. rewrite hash_step, IH.
    apply ToInt32_congr.
    rewrite Nat2Z.inj_succ, Z.pow_succ_r by lia.
    rewrite (Z.add_mod (_ * _)), Z.mul_mod, ToInt32_mod by lia.
    rewrite <- Z.mul_mod, <- Z.add_mod by lia.
    f_equal. lia.
Qed.

(** X1: [hash] is the absolute value of the polynomial
    [c_0 * 31^(n-1) + ... + c_(n-1)] of the character codes wrapped once into
    32 signed bits: wrapping after every step of the loop changes nothing. *)
Theorem hash_is_wrapped_polynomial (s : string) :
  hash s = Z.abs (ToInt32 (poly31 s)).
Proof.
  unfold hash, Math_abs. f_equal.
  rewrite <- (ToInt32_small (hash_loop s 0)) by (apply hash_loop_range; lia).
  rewrite hash_loop_poly. f_equal.
Qed.

(** X2: [hash] returns an integer between 0 and [2^31] inclusive, and the
    upper end is reached (for ["aexafoxyEN"], where the loop ends on
    [-2^31]): the seed need not fit in 32 signed bits. *)
Theorem hash_bounds_tight :
  (forall s, 0 <= hash s <= 2 ^ 31) /\ hash "aexafoxyEN" = 2 ^ 31.
Proof.
  split; [| reflexivity].
  intros s. pose proof (hash_loop_range s 0 ltac:(lia)).
  unfold hash, Math_abs. lia.
Qed.

(** *** Strings *)

Lemma append_String (c : ascii) (s t : string) :
  (String c s ++ t)%string = String c (s ++ t)%string.
Proof. reflexivity. Qed.

Lemma append_empty_l (s : string) : (EmptyString ++ s)%string = s.
Proof. reflexivity. Qed.

Lemma append_empty_r (s : string) : (s ++ EmptyString)%string = s.
Proof.
  induction s as [|c s IH]; [reflexivity |]. rewrite append_String, IH. reflexivity.
Qed.

Lemma append_assoc (a b c : string) : ((a ++ b) ++ c)%string = (a ++ (b ++ c))%string.
Proof.
  induction a as [|x a IH]; [reflexivity |].
  rewrite !append_String, IH. reflexivity.
Qed.

Lemma append_length (a b : string) :
  String.length (a ++ b)%string = (String.length a + String.length b)%nat.
Proof.
  induction a as [|x a IH]; [reflexivity |].
  rewrite append_String. simpl. rewrite IH. reflexivity.
Qed.

(** Cancellation of a common suffix. *)
Lemma append_inj_r (a b s : string) : (a ++ s = b ++ s)%string -> a = b.
Proof.
  revert b. induction a as [|x a IH]; intros [|y b] H.
  - reflexivity.
  - apply (f_equal String.length) in H. rewrite !append_length in H. simpl in H. lia.
  - apply (f_equal String.length) in H. rewrite !append_length in H. simpl in H. lia.
  - rewrite !append_String in H. inversion H as [[Hx Hr]].
    f_equal. apply IH, Hr.
Qed.

Lemma append_last_inj (a b : string) (c d : ascii) :
  (a ++ String c EmptyString = b ++ String d EmptyString)%string -> a = b /\ c = d.
Proof.
  revert b. induction a as [|x a IH]; intros [|y b] H.
  - inversion H. split; reflexivity.
  - apply (f_equal String.length) in H. rewrite !append_length in H. simpl in H. lia.
  - apply (f_equal String.length) in H. rewrite !append_length in H. simpl in H. lia.
  - rewrite !append_String in H. inversion H as [[Hx Hr]].
    destruct (IH b Hr) as [-> ->]. split; reflexivity.
Qed.

(** X3: the string that [processDocument] hashes determines both of its
    arguments: two calls hash the same string only if they have the same
    uploadId and the same language. *)
Theorem hashed_string_injective
    (uploadId1 uploadId2 : string) (language1 language2 : LanguageOption) :
  (uploadId1 ++ language_string language1)%string
  = (uploadId2 ++ language_string language2)%string ->
  uploadId1 = uploadId2 /\ language1 = language2.
Proof.
  intros H.
  assert (L : language1 = language2).
  { assert (E : forall l, exists p c,
               language_string l = (p ++ String c EmptyString)%string /\
               c = match l with
                   | EN => "N"%char | HI => "I"%char | Regional => "l"%char
                   end).
    { intros []; [exists "E"%string | exists "H"%string | exists "Regiona"%string];
        eexists; split; reflexivity. }
    destruct (E language1) as (p1 & c1 & E1 & C1).
    destruct (E language2) as (p2 & c2 & E2 & C2).
    rewrite E1, E2, <- !append_assoc in H.
    apply append_last_inj in H. destruct H as [_ Hc]. subst c1 c2.
    destruct language1, language2; try reflexivity; discriminate. }
  subst language2. split; [| reflexivity].
  eapply append_inj_r, H.
Qed.

Lemma hashed_string_injective_witness :
  ("doc-8" ++ language_string EN)%string = ("doc-8" ++ language_string EN)%string /\
  "doc-8"%string = "doc-8"%string /\ EN = EN.
Proof.
  split; [reflexivity | apply (hashed_string_injective "doc-8" "doc-8" EN EN); reflexivity].
Defined.

(** *** [score] *)

Lemma count_true_Permutation (l1 l2 : list bool) :
  Permutation l1 l2 -> count_true l1 = count_true l2.
Proof.
  unfold count_true. intros H. f_equal.
  induction H as [| x l l' _ IH | x y l | l l' l'' _ IH1 _ IH2]; simpl.
  - reflexivity.
  - destruct x; simpl; rewrite IH; reflexivity.
  - destruct x, y; reflexivity.
  - rewrite IH1. exact IH2.
Qed.

(** X4: the score does not depend on the order of the checks: two check
    lists that are permutations of each other get the same score. *)
Theorem score_permutation (flags1 flags2 : list bool) (outOf : float) :
  Permutation flags1 flags2 -> score flags1 outOf = score flags2 outOf.
Proof.
  intros H. unfold score. rewrite !reduce_count.
  rewrite (count_true_Permutation _ _ H), (Permutation_length H). reflexivity.
Qed.

Lemma score_permutation_witness :
  Permutation [true; false; false] [false; false; true] /\
  score [true; false; false] 30 = score [false; false; true] 30.
Proof.
  assert (P : Permutation [true; false; false] [false; false; true]).
  { apply perm_trans with [false; true; false].
    - apply perm_swap.
    - apply perm_skip, perm_swap. }
  split; [exact P | apply (score_permutation _ _ 30 P)].
Defined.

(** X5: on the three check lists of [processDocument] (3 checks out of 30,
    4 out of 25, 2 out of 25) a check that becomes true never lowers the
    score, no check true gives 0 and all checks true give the maximum. *)
Theorem score_monotone_in_checks :
  (forall a b c,
     (score [a; b; c] 30 <=? score [true; b; c] 30)%float = true /\
     (score [a; b; c] 30 <=? score [a; true; c] 30)%float = true /\
     (score [a; b; c] 30 <=? score [a; b; true] 30)%float = true) /\
  (forall a b c d,
     (score [a; b; c; d] 25 <=? score [true; b; c; d] 25)%float = true /\
     (score [a; b; c; d] 25 <=? score [a; true; c; d] 25)%float = true /\
     (score [a; b; c; d] 25 <=? score [a; b; true; d] 25)%float = true /\
     (score [a; b; c; d] 25 <=? score [a; b; c; true] 25)%float = true) /\
  (forall a b,
     (score [a; b] 25 <=? score [true; b] 25)%float = true /\
     (score [a; b] 25 <=? score [a; true] 25)%float = true) /\
  score [false; false; false] 30 = 0%float /\
  score [true; true; true] 30 = 30%float /\
  score [false; false; false; false] 25 = 0%float /\
  score [true; true; true; true] 25 = 25%float /\
  score [false; false] 25 = 0%float /\
  score [true; true] 25 = 25%float.
Proof.
  split; [| split; [| split]].
  - intros [] [] []; repeat split; reflexivity.
  - intros [] [] [] []; repeat split; reflexivity.
  - intros [] []; repeat split; reflexivity.
  - repeat split; reflexivity.
Qed.

(** *** [clamp01] *)

Lemma clamp01_low (x : float) : (x <=? 0)%float = true -> clamp01 x = 0%float.
Proof.
  intros H0. unfold clamp01.
  destruct (FloatOrder.leb_not_nan _ _ H0) as [Hx _].
  assert (Hlt1 : (x <? 1)%float = true)
    by (apply (FloatOrder.leb_ltb_trans x 0 1 H0); reflexivity).
  assert (M : Math_min 1 x = x).
  { unfold Math_min. change (PrimFloat.is_nan 1) with false. rewrite Hx. simpl orb.
    destruct (1 <? x)%float eqn:H1.
    - apply FloatOrder.ltb_not_leb in H1.
      rewrite (FloatOrder.ltb_leb _ _ Hlt1) in H1. discriminate.
    - rewrite Hlt1. reflexivity. }
  rewrite M. unfold Math_max. change (PrimFloat.is_nan 0) with false. rewrite Hx.
  simpl orb. change (PrimFloat.get_sign 0) with false.
  destruct (0 <? x)%float eqn:H2.
  - apply FloatOrder.ltb_not_leb in H2. congruence.
  - destruct (x <? 0)%float; reflexivity.
Qed.

Lemma clamp01_mid (x : float) :
  (0 <? x)%float = true -> (x <=? 1)%float = true -> clamp01 x = x.
Proof.
  intros H0 H1. unfold clamp01.
  destruct (FloatOrder.leb_not_nan _ _ H1) as [Hx _].
  assert (M : Math_min 1 x = x).
  { unfold Math_min. change (PrimFloat.is_nan 1) with false. rewrite Hx. simpl orb.
    change (PrimFloat.get_sign 1) with false.
    destruct (1 <? x)%float eqn:H2.
    - apply FloatOrder.ltb_not_leb in H2. congruence.
    - destruct (x <? 1)%float; reflexivity. }
  rewrite M. unfold Math_max. change (PrimFloat.is_nan 0) with false. rewrite Hx.
  simpl orb. rewrite H0. reflexivity.
Qed.

Lemma clamp01_high (x : float) : (1 <? x)%float = true -> clamp01 x = 1%float.
Proof.
  intros H1. unfold clamp01.
  destruct (FloatOrder.leb_not_nan _ _ (FloatOrder.ltb_leb _ _ H1)) as [_ Hx].
  assert (M : Math_min 1 x = 1%float).
  { unfold Math_min. change (PrimFloat.is_nan 1) with false. rewrite Hx. simpl orb.
    rewrite H1. reflexivity. }
  rewrite M. reflexivity.
Qed.

Lemma clamp01_nan (x : float) : PrimFloat.is_nan x = true -> clamp01 x = PrimFloat.nan.
Proof.
  intros Hx. unfold clamp01.
  assert (M : Math_min 1 x = PrimFloat.nan).
  { unfold Math_min. rewrite Hx, orb_true_r. reflexivity. }
  rewrite M. reflexivity.
Qed.

Lemma clamp01_cases (x : float) :
  (PrimFloat.is_nan x = true /\ clamp01 x = PrimFloat.nan) \/
  ((x <=? 0)%float = true /\ clamp01 x = 0%float) \/
  ((0 <? x)%float = true /\ (x <=? 1)%float = true /\ clamp01 x = x) \/
  ((1 <? x)%float = true /\ clamp01 x = 1%float).
Proof.
  destruct (PrimFloat.is_nan x) eqn:Hx.
  - left. split; [reflexivity | apply clamp01_nan, Hx].
  - right. destruct (x <=? 0)%float eqn:H0.
    + left. split; [reflexivity | apply clamp01_low, H0].
    + right. apply FloatOrder.not_leb_ltb in H0; [| exact Hx | reflexivity].
      destruct (x <=? 1)%float eqn:H1.
      * left. split; [exact H0 |]. split; [reflexivity | apply clamp01_mid; assumption].
      * right. apply FloatOrder.not_leb_ltb in H1; [| exact Hx | reflexivity].
        split; [exact H1 | apply clamp01_high, H1].
Qed.

(** X6: [clamp01] on every double: NaN stays NaN; a value at most 0
    (negative zero included) becomes [+0]; a value above 0 and at most 1 is
    returned unchanged; a value above 1 becomes 1. *)
Theorem clamp01_characterisation (x : float) :
  (PrimFloat.is_nan x = true /\ clamp01 x = PrimFloat.nan) \/
  ((x <=? 0)%float = true /\ clamp01 x = 0%float) \/
  ((0 <? x)%float = true /\ (x <=? 1)%float = true /\ clamp01 x = x) \/
  ((1 <? x)%float = true /\ clamp01 x = 1%float).
Proof. exact (clamp01_cases x). Qed.

(** X7: [clamp01] is idempotent on every double, NaN included. *)
Theorem clamp01_idempotent (x : float) : clamp01 (clamp01 x) = clamp01 x.
Proof.
  destruct (clamp01_cases x) as [[_ E] | [[_ E] | [(H0 & H1 & E) | [_ E]]]];
    rewrite E; try reflexivity.
  apply clamp01_mid; assumption.
Qed.

(** X8: [clamp01] is monotone: [x <= y] implies
    [clamp01 x <= clamp01 y]. *)
Theorem clamp01_monotone (x y : float) :
  (x <=? y)%float = true -> (clamp01 x <=? clamp01 y)%float = true.
Proof.
  intros Hxy. destruct (FloatOrder.leb_not_nan _ _ Hxy) as [Nx Ny].
  destruct (clamp01_cases x) as [[N _] | [[X0 Ex] | [(X0 & X1 & Ex) | [X1 Ex]]]];
    [congruence | | |];
    (destruct (clamp01_cases y) as [[N _] | [[Y0 Ey] | [(Y0 & Y1 & Ey) | [Y1 Ey]]]];
     [congruence | | |]); rewrite Ex, Ey; try reflexivity.
  - apply FloatOrder.ltb_leb, Y0.
  - pose proof (FloatOrder.leb_trans _ _ _ Hxy Y0) as C.
    apply FloatOrder.ltb_not_leb in X0. congruence.
  - exact Hxy.
  - exact X1.
  - pose proof (FloatOrder.leb_trans _ _ _ Hxy Y0) as C.
    assert (Z1 : (0 <? x)%float = true)
      by (apply (FloatOrder.leb_ltb_trans 0 1 x); [reflexivity | exact X1]).
    apply FloatOrder.ltb_not_leb in Z1. congruence.
  - pose proof (FloatOrder.leb_trans _ _ _ Hxy Y1) as C.
    apply FloatOrder.ltb_not_leb in X1. congruence.
Qed.

Lemma clamp01_monotone_witness :
  (0.25 <=? 1.5)%float = true /\ (clamp01 0.25 <=? clamp01 1.5)%float = true.
Proof.
  split; [reflexivity | apply (clamp01_monotone 0.25 1.5); reflexivity].
Defined.

(** *** [buildRecommendations] *)

Lemma buildRecommendations_spec (s : Scores) (f : ConsistencyFlags) (r : RiskPrediction) :
  buildRecommendations s f r = recommend_spec s f r.
Proof.
  unfold buildRecommendations, recommend_spec, recommendation_rules, push.
  cbn [List.filter List.map fst snd].
  generalize (budgetMismatch f), (timelineIssues f), (missingData f),
    (0.5 <? delayRisk r)%float, (compliance s <? 20)%float,
    (technicalQuality s <? 18)%float.
  intros [] [] [] [] [] []; reflexivity.
Qed.

Lemma NoDup_map_filter {A B : Type} (g : A -> B) (p : A -> bool) (l : list A) :
  NoDup (List.map g l) -> NoDup (List.map g (List.filter p l)).
Proof.
  induction l as [|x l IH]; simpl; intros H; [constructor |].
  apply NoDup_cons in H. destruct H as [Hn Hd].
  destruct (p x); simpl; [apply NoDup_cons; split |]; auto.
  intros Hin. apply Hn. apply list_elem_of_In. apply list_elem_of_In in Hin.
  apply in_map_iff in Hin. destruct Hin as (z & Hz & Hin).
  apply filter_In in Hin. apply in_map_iff. exists z. tauto.
Qed.

Lemma rule_messages_distinct :
  NoDup (List.map snd recommendation_rules) /\
  ~ In fallback_recommendation (List.map snd recommendation_rules).
Proof.
  split.
  - apply (bool_decide_unpack _). vm_compute. exact I.
  - rewrite <- list_elem_of_In. apply (bool_decide_unpack _). vm_compute. exact I.
Qed.

(** X9: [buildRecommendations] returns at most six messages, never the same
    message twice, and the fallback message only as the single element of
    the list. *)
Theorem recommendations_shape
    (s : Scores) (f : ConsistencyFlags) (r : RiskPrediction) :
  (length (buildRecommendations s f r) <= 6)%nat /\
  NoDup (buildRecommendations s f r) /\
  (In fallback_recommendation (buildRecommendations s f r)
   <-> buildRecommendations s f r = [fallback_recommendation]).
Proof.
  rewrite buildRecommendations_spec. unfold recommend_spec.
  destruct rule_messages_distinct as [Hnd Hfb].
  remember (List.map snd (List.filter (fun rule : Rule => fst rule s f r)
                                      recommendation_rules)) as fired eqn:Ef.
  assert (Hnd' : NoDup fired) by (subst fired; apply NoDup_map_filter, Hnd).
  assert (Hlen : (length fired <= 6)%nat).
  { subst fired. rewrite length_map. apply (filter_length_le _ recommendation_rules). }
  assert (Hin : ~ In fallback_recommendation fired).
  { subst fired. intros Hin. apply Hfb.
    apply in_map_iff in Hin. destruct Hin as (z & Hz & Hin).
    apply filter_In in Hin. apply in_map_iff. exists z. tauto. }
  clear Ef Hnd Hfb. destruct fired as [|m fired].
  - split; [simpl; lia |]. split; [apply NoDup_singleton |].
    split; [reflexivity | intros _; left; reflexivity].
  - split; [exact Hlen |]. split; [exact Hnd' |].
    split; [intros H; contradiction | intros H; exfalso; apply Hin].
    inversion H. left. reflexivity.
Qed.

(** *** The two clamps of [processDocument] never clip *)

Lemma risks_unclamped (seed : Z) :
  0 <= seed ->
  let r := analysis seed in
  let base_risk := (Z2F (Z.rem seed 100) / 100)%float in
  PrimFloat.Leibniz.eqb (costOverrunRisk (risk r))
    (base_risk * 0.7 + (if omFourYears (financial (validation r)) then 0 else 0.2))%float
  && PrimFloat.Leibniz.eqb (delayRisk (risk r))
    (base_risk * 0.6 + (if timeline (projectProfile (validation r)) then 0 else 0.25))%float
  && PrimFloat.Leibniz.eqb (implementationRisk (risk r))
    (base_risk * 0.5
     + (if gatiShaktiAligned (technical (validation r)) then 0 else 0.2))%float
  = true.
Proof.
  intros Hs. pose proof (rem_100_bound seed Hs) as Hr.
  unfold analysis.
  cbn [risk costOverrunRisk delayRisk implementationRisk
       validation projectProfile financial technical timeline omFourYears
       gatiShaktiAligned].
  revert Hr.
  generalize (negb (Z.rem seed 4 =? 0)), (negb (Z.rem seed 7 =? 0)),
    (negb (Z.rem seed 6 =? 0)), (Z.rem seed 100).
  intros om tl gs r Hr. revert r Hr.
  destruct om, tl, gs; apply forall_residue; vm_compute; reflexivity.
Qed.

Lemma total_unclamped (tl gst om lnd gs : bool) (k : Z) :
  0 <= k < Z.of_nat 21 ->
  PrimFloat.Leibniz.eqb
    (Math_max 0 (Math_min 100
       (score [true; tl; true] 30 + score [gst; om; true; lnd] 25
        + score [gs; true] 25 + Z2F k)%float))
    (score [true; tl; true] 30 + score [gst; om; true; lnd] 25
     + score [gs; true] 25 + Z2F k)%float = true.
Proof.
  revert k. destruct tl, gst, om, lnd, gs; apply forall_residue; vm_compute; reflexivity.
Qed.

(** X10: neither clamp of [processDocument] ever clips: in every result the
    total is exactly the sum of the four sub-scores, and each risk is
    exactly [base_risk * weight + penalty]. *)
Theorem clamps_never_clip (st : Store) (uploadId : string) (language : LanguageOption) :
  exists st' r,
    processDocument st uploadId language = (st', Fulfilled r) /\
    let base_risk :=
      (Z2F (Z.rem (hash (uploadId ++ language_string language)) 100) / 100)%float in
    total (scores r)
    = (completeness (scores r) + compliance (scores r) + technicalQuality (scores r)
       + impactSustainability (scores r))%float /\
    costOverrunRisk (risk r)
    = (base_risk * 0.7
       + (if omFourYears (financial (validation r)) then 0 else 0.2))%float /\
    delayRisk (risk r)
    = (base_risk * 0.6
       + (if timeline (projectProfile (validation r)) then 0 else 0.25))%float /\
    implementationRisk (risk r)
    = (base_risk * 0.5
       + (if gatiShaktiAligned (technical (validation r)) then 0 else 0.2))%float.
Proof.
  rewrite processDocument_eq. do 2 eexists. split; [reflexivity |].
  pose proof (hash_nonneg (uploadId ++ language_string language)) as Hs.
  revert Hs. generalize (hash (uploadId ++ language_string language)). intros seed Hs.
  cbv zeta.
  pose proof (risks_unclamped seed Hs) as R. cbv zeta in R.
  rewrite !andb_true_iff in R. destruct R as [[Rc Rd] Ri].
  apply FloatAxioms.Leibniz.eqb_spec in Rc, Rd, Ri.
  split; [| split; [exact Rc | split; [exact Rd | exact Ri]]].
  pose proof (risk_and_impact seed Hs) as H. cbv zeta in H.
  apply andb_true_iff in H. destruct H as [_ H].
  apply integer_below_spec in H. destruct H as (k & Hk & Ek).
  destruct (scores_shape seed) as (Ec & Ep & Et & Es).
  pose proof (total_unclamped (timeline (projectProfile (validation (analysis seed))))
                (gstComponents (financial (validation (analysis seed))))
                (omFourYears (financial (validation (analysis seed))))
                (landAvailability (certificates (validation (analysis seed))))
                (gatiShaktiAligned (technical (validation (analysis seed)))) k Hk) as T.
  rewrite <- Ec, <- Ep, <- Et, <- Ek, <- Es in T.
  apply FloatAxioms.Leibniz.eqb_spec in T. exact T.
Qed.

(** *** Flags and recommendations of a result *)

(** X11: in every result the three consistency flags mirror validation
    checks: [timelineIssues] is the negation of [timeline], [budgetMismatch]
    the negation of [omFourYears], [missingData] the negation of
    [gatiShaktiAligned]; and [ineligibleSector] is [true] when the sector is
    on the negative list and absent otherwise, never [false]. *)
Theorem flags_mirror_validation
    (st : Store) (uploadId : string) (language : LanguageOption) :
  exists st' r,
    processDocument st uploadId language = (st', Fulfilled r) /\
    timelineIssues (flags r) = negb (timeline (projectProfile (validation r))) /\
    budgetMismatch (flags r) = negb (omFourYears (financial (validation r))) /\
    missingData (flags r) = negb (gatiShaktiAligned (technical (validation r))) /\
    ineligibleSector (flags r)
    = (if negativeList (eligibility r) then Some true else None) /\
    ineligibleSector (flags r) <> Some false.
Proof.
  rewrite processDocument_eq. do 2 eexists. split; [reflexivity |].
  generalize (hash (uploadId ++ language_string language)). intros seed.
  split; [reflexivity |].
  split; [cbn; symmetry; apply negb_involutive |].
  split; [cbn; symmetry; apply negb_involutive |].
  split; [reflexivity |].
  cbn. destruct (Z.rem seed 9 =? 0); discriminate.
Qed.

Lemma rule_message_inj (a b : Rule) :
  In a recommendation_rules -> In b recommendation_rules -> snd a = snd b -> a = b.
Proof.
  unfold recommendation_rules. simpl In. intros Ha Hb E.
  repeat (destruct Ha as [Ha | Ha]; [subst a |]); try contradiction;
    repeat (destruct Hb as [Hb | Hb]; [subst b |]); try contradiction;
    try reflexivity; simpl in E; discriminate.
Qed.

(** A rule's message is in the result exactly when its predicate holds. *)
Lemma recommendation_emitted
    (s : Scores) (f : ConsistencyFlags) (r : RiskPrediction) (rule : Rule) :
  In rule recommendation_rules ->
  (In (snd rule) (buildRecommendations s f r) <-> fst rule s f r = true).
Proof.
  intros Hrule. rewrite buildRecommendations_spec. unfold recommend_spec.
  assert (F : In (snd rule)
                (List.map snd (List.filter (fun x : Rule => fst x s f r)
                                           recommendation_rules))
              <-> fst rule s f r = true).
  { rewrite in_map_iff. split.
    - intros (x & Ex & Hx). apply filter_In in Hx. destruct Hx as [Hx Px].
      rewrite <- (rule_message_inj x rule Hx Hrule Ex). exact Px.
    - intros P. exists rule. split; [reflexivity |]. apply filter_In. tauto. }
  assert (N : snd rule <> fallback_recommendation).
  { intros E. destruct rule_messages_distinct as [_ Hfb]. apply Hfb.
    rewrite <- E. apply in_map, Hrule. }
  destruct (List.map snd _) as [|m fired].
  - rewrite <- F. simpl. split; [intros [E | []]; congruence | intros []].
  - exact F.
Qed.

(** X12: in every result, the message asking for missing documentation is
    present exactly when the one about GatiShakti and SOR alignment is; the
    budget message is never present without the one about GST, O&M and
    certificates; the timeline message is present exactly when the timeline
    check failed; and the GST, O&M and certificates message exactly when one
    of those three checks failed. *)
Theorem recommendations_coupled
    (st : Store) (uploadId : string) (language : LanguageOption) :
  exists st' r,
    processDocument st uploadId language = (st', Fulfilled r) /\
    (In "Provide missing documentation and KPI evidence."%string (recommendations r)
     <-> In "Align design with GatiShakti and SOR standards."%string
            (recommendations r)) /\
    (In "Review budget allocations to resolve mismatches against scope."%string
        (recommendations r)
     -> In "Ensure GST, O&M, and certificates are fully documented."%string
           (recommendations r)) /\
    (In "Adjust project timeline to reflect realistic milestones."%string
        (recommendations r)
     <-> timeline (projectProfile (validation r)) = false) /\
    (In "Ensure GST, O&M, and certificates are fully documented."%string
        (recommendations r)
     <-> gstComponents (financial (validation r))
         && omFourYears (financial (validation r))
         && landAvailability (certificates (validation r)) = false).
Proof.
  rewrite processDocument_eq. do 2 eexists. split; [reflexivity |].
  generalize (hash (uploadId ++ language_string language)). intros seed.
  change (recommendations (analysis seed))
    with (buildRecommendations (scores (analysis seed)) (flags (analysis seed))
            (risk (analysis seed))).
  pose proof (fun rule => recommendation_emitted (scores (analysis seed))
                (flags (analysis seed)) (risk (analysis seed)) rule) as R.
  pose proof (R (fun _ f _ => budgetMismatch f, _) ltac:(simpl; tauto)) as R1.
  pose proof (R (fun _ f _ => timelineIssues f, _)
                ltac:(right; left; reflexivity)) as R2.
  pose proof (R (fun _ f _ => missingData f, _)
                ltac:(do 2 right; left; reflexivity)) as R3.
  pose proof (R (fun s _ _ => (compliance s <? 20)%float, _)
                ltac:(do 4 right; left; reflexivity)) as R5.
  pose proof (R (fun s _ _ => (technicalQuality s <? 18)%float, _)
                ltac:(do 5 right; left; reflexivity)) as R6.
  clear R. cbn [fst snd] in R1, R2, R3, R5, R6.
  rewrite R1, R2, R3, R5, R6. clear R1 R2 R3 R5 R6.
  destruct (scores_shape seed) as (_ & Ep & Et & _). cbv zeta in Ep, Et.
  rewrite Ep, Et.
  change (budgetMismatch (flags (analysis seed))) with (Z.rem seed 4 =? 0).
  change (missingData (flags (analysis seed))) with (Z.rem seed 6 =? 0).
  change (timelineIssues (flags (analysis seed))) with (negb (negb (Z.rem seed 7 =? 0))).
  change (timeline (projectProfile (validation (analysis seed))))
    with (negb (Z.rem seed 7 =? 0)).
  change (gstComponents (financial (validation (analysis seed))))
    with (negb (Z.rem seed 3 =? 0)).
  change (omFourYears (financial (validation (analysis seed))))
    with (negb (Z.rem seed 4 =? 0)).
  change (landAvailability (certificates (validation (analysis seed))))
    with (negb (Z.rem seed 8 =? 0)).
  change (gatiShaktiAligned (technical (validation (analysis seed))))
    with (negb (Z.rem seed 6 =? 0)).
  destruct (Z.rem seed 3 =? 0), (Z.rem seed 4 =? 0), (Z.rem seed 6 =? 0),
    (Z.rem seed 7 =? 0), (Z.rem seed 8 =? 0);
    vm_compute; repeat split; congruence.
Qed.

(** *** The values a sub-score can take *)

(** X13: in every result completeness is 20 or 30, compliance is 6, 13, 19
    or 25, technicalQuality is 13 or 25, and impactSustainability is one of
    the integers 0, ..., 20. *)
Theorem sub_score_values (st : Store) (uploadId : string) (language : LanguageOption) :
  exists st' r,
    processDocument st uploadId language = (st', Fulfilled r) /\
    (completeness (scores r) = 20%float \/ completeness (scores r) = 30%float) /\
    (compliance (scores r) = 6%float \/ compliance (scores r) = 13%float \/
     compliance (scores r) = 19%float \/ compliance (scores r) = 25%float) /\
    (technicalQuality (scores r) = 13%float \/ technicalQuality (scores r) = 25%float) /\
    (exists k, 0 <= k <= 20 /\ impactSustainability (scores r) = Z2F k).
Proof.
  rewrite processDocument_eq. do 2 eexists. split; [reflexivity |].
  pose proof (hash_nonneg (uploadId ++ language_string language)) as Hs.
  revert Hs. generalize (hash (uploadId ++ language_string language)). intros seed Hs.
  destruct (scores_shape seed) as (Ec & Ep & Et & _). cbv zeta in Ec, Ep, Et.
  rewrite Ec, Ep, Et. split; [| split; [| split]].
  - destruct (timeline _); [right | left]; reflexivity.
  - destruct (gstComponents _), (omFourYears _), (landAvailability _);
      vm_compute; tauto.
  - destruct (gatiShaktiAligned _); [right | left]; reflexivity.
  - pose proof (risk_and_impact seed Hs) as H. cbv zeta in H.
    apply andb_true_iff in H. destruct H as [_ H].
    apply integer_below_spec in H. destruct H as (k & Hk & Ek).
    exists k. split; [lia | exact Ek].
Qed.

(** ** The module state *)

(** *** What [processDocument] leaves in the store *)


(** X15: [processDocument] keeps the list of documents in place: same
    length, same order, and each document keeps its id, filename, upload time,
    language and size; its status becomes [completed] when its id is the
    processed uploadId and is unchanged otherwise. *)
Theorem processDocument_dprs
    (st : Store) (uploadId : string) (language : LanguageOption) :
  Forall2
    (fun d d' =>
       dpr_id d' = dpr_id d /\ filename d' = filename d /\
       uploadedAt d' = uploadedAt d /\ dpr_language d' = dpr_language d /\
       sizeBytes d' = sizeBytes d /\
       status d' = (if String.eqb (dpr_id d) uploadId then completed else status d))
    (dprs st) (dprs (fst (processDocument st uploadId language))).
Proof.
  rewrite processDocument_eq. cbn [fst dprs].
  induction (dprs st) as [|d l IH]; simpl; constructor; [| exact IH].
  destruct (String.eqb (dpr_id d) uploadId); repeat split.
Qed.

Lemma mark_completed_idem (d : DPRFile) : mark_completed (mark_completed d) = mark_completed d.
Proof. reflexivity. Qed.

Lemma store_eq (a b : Store) : dprs a = dprs b -> resultsMap a = resultsMap b -> a = b.
Proof. destruct a, b. simpl. intros -> ->. reflexivity. Qed.

(** X16: processing the same document again with the same language changes
    nothing: the store after two calls is the store after one. *)
Theorem processDocument_idempotent
    (st : Store) (uploadId : string) (language : LanguageOption) :
  fst (processDocument (fst (processDocument st uploadId language)) uploadId language)
  = fst (processDocument st uploadId language).
Proof.
  rewrite !processDocument_eq. cbn [fst dprs resultsMap].
  apply store_eq; cbn [dprs resultsMap].
  - rewrite List.map_map. apply List.map_ext. intros d.
    destruct (String.eqb (dpr_id d) uploadId) eqn:E; cbn [dpr_id mark_completed].
    + rewrite E. reflexivity.
    + rewrite E. reflexivity.
  - apply insert_insert_eq.
Qed.

(** X17: calls for two different uploadIds commute: the store does not
    depend on the order in which two documents are processed. *)
Theorem processDocument_commute
    (st : Store) (uploadId1 uploadId2 : string) (language1 language2 : LanguageOption) :
  uploadId1 <> uploadId2 ->
  fst (processDocument (fst (processDocument st uploadId1 language1))
         uploadId2 language2)
  = fst (processDocument (fst (processDocument st uploadId2 language2))
           uploadId1 language1).
Proof.
  intros Hne. rewrite !processDocument_eq. cbn [fst dprs resultsMap].
  apply store_eq; cbn [dprs resultsMap].
  - rewrite !List.map_map. apply List.map_ext. intros d.
    destruct (String.eqb (dpr_id d) uploadId1) eqn:E1,
      (String.eqb (dpr_id d) uploadId2) eqn:E2;
      cbn [dpr_id mark_completed]; rewrite ?E1, ?E2; reflexivity.
  - apply insert_insert_ne. congruence.
Qed.

Lemma processDocument_commute_witness :
  "a"%string <> "b"%string /\
  fst (processDocument (fst (processDocument emptyStore "a" EN)) "b" HI)
  = fst (processDocument (fst (processDocument emptyStore "b" HI)) "a" EN).
Proof.
  assert (N : "a"%string <> "b"%string) by discriminate.
  split; [exact N | apply (processDocument_commute emptyStore "a" "b" EN HI N)].
Defined.



(** *** [uploadFile] followed by [processDocument] *)



(** *** [listDPRs] *)

Lemma prefix_spec (q s : string) :
  String.prefix q s = true <-> exists b, s = (q ++ b)%string.
Proof.
  revert s. induction q as [|c q IH]; intros s.
  - destruct s; simpl; (split; [intros _; eexists; reflexivity | reflexivity]).
  - destruct s as [|d s]; simpl.
    + split; [discriminate | intros [b Hb]; discriminate].
    + destruct (ascii_dec c d) as [-> | Hne].
      * rewrite IH. split; intros [b Hb]; exists b.
        -- rewrite append_String, Hb. reflexivity.
        -- rewrite append_String in Hb. inversion Hb. reflexivity.
      * split; [discriminate |]. intros [b Hb].
        rewrite append_String in Hb. inversion Hb as [[Hc Hs]]. exfalso. apply Hne. symmetry. exact Hc.
Qed.

Lemma includes_spec (s q : string) : includes s q = true <-> occurs_in q s.
Proof.
  unfold occurs_in. induction s as [|c s IH]; cbn [includes].
  - rewrite orb_false_r, prefix_spec. split.
    + intros [b Hb]. exists EmptyString, b. exact Hb.
    + intros (a & b & H). destruct a as [|x a]; [exists b; exact H |].
      rewrite append_String in H. discriminate.
  - rewrite orb_true_iff, prefix_spec, IH. split.
    + intros [[b Hb] | (a & b & H)].
      * exists EmptyString, b. exact Hb.
      * exists (String c a), b. rewrite append_String, H. reflexivity.
    + intros (a & b & H). destruct a as [|x a].
      * left. exists b. exact H.
      * right. rewrite append_String in H. inversion H. exists a, b. reflexivity.
Qed.

Lemma occurs_in_trans (a b c : string) : occurs_in a b -> occurs_in b c -> occurs_in a c.
Proof.
  intros (p & q & ->) (p' & q' & ->).
  exists (p' ++ p)%string, (q ++ q')%string.
  rewrite !append_assoc. reflexivity.
Qed.

Lemma occurs_in_empty (s : string) : occurs_in EmptyString s.
Proof. exists EmptyString, s. reflexivity. Qed.

Lemma trimStart_suffix (s : string) : exists a, s = (a ++ trimStart s)%string.
Proof.
  induction s as [|c s [a IH]]; simpl.
  - exists EmptyString. reflexivity.
  - destruct (isWhiteSpace c).
    + exists (String c a). rewrite append_String, <- IH. reflexivity.
    + exists EmptyString. reflexivity.
Qed.

Lemma trimEnd_prefix (s : string) : exists b, s = (trimEnd s ++ b)%string.
Proof.
  induction s as [|c s [b IH]]; simpl.
  - exists EmptyString. reflexivity.
  - destruct (trimEnd s) as [|d t] eqn:E.
    + destruct (isWhiteSpace c).
      * exists (String c s). reflexivity.
      * exists s. reflexivity.
    + exists b. rewrite append_String, <- IH. reflexivity.
Qed.

(** What [trim] returns occurs in its argument. *)
Lemma trim_occurs (s : string) : occurs_in (trim s) s.
Proof.
  unfold trim. destruct (trimStart_suffix s) as [a Ha].
  destruct (trimEnd_prefix (trimStart s)) as [b Hb].
  exists a, b. rewrite <- Hb. exact Ha.
Qed.

Lemma isWhiteSpace_toLowerCase (c : ascii) :
  isWhiteSpace (toLowerCase_unit c) = isWhiteSpace c.
Proof. destruct c as [[] [] [] [] [] [] [] []]; reflexivity. Qed.

Lemma trimStart_toLowerCase (s : string) :
  trimStart (toLowerCase s) = toLowerCase (trimStart s).
Proof.
  induction s as [|c s IH]; [reflexivity |].
  cbn [toLowerCase trimStart]. rewrite isWhiteSpace_toLowerCase.
  destruct (isWhiteSpace c); [exact IH | reflexivity].
Qed.

Lemma trimEnd_toLowerCase (s : string) :
  trimEnd (toLowerCase s) = toLowerCase (trimEnd s).
Proof.
  induction s as [|c s IH]; [reflexivity |].
  cbn [toLowerCase trimEnd]. rewrite IH, isWhiteSpace_toLowerCase.
  destruct (trimEnd s); cbn [toLowerCase]; [destruct (isWhiteSpace c) |]; reflexivity.
Qed.

Lemma trim_toLowerCase (s : string) : trim (toLowerCase s) = toLowerCase (trim s).
Proof. unfold trim. rewrite trimStart_toLowerCase, trimEnd_toLowerCase. reflexivity. Qed.

Lemma includes_empty (s : string) : includes s EmptyString = true.
Proof. apply includes_spec, occurs_in_empty. Qed.

Lemma filter_all {A : Type} (p : A -> bool) (l : list A) :
  (forall x, In x l -> p x = true) -> List.filter p l = l.
Proof.
  induction l as [|x l IH]; simpl; intros H; [reflexivity |].
  rewrite (H x) by (left; reflexivity). f_equal. apply IH. intros y Hy. apply H. right. exact Hy.
Qed.

(** With a query, [listDPRs] is the filter, also when the normalised query is
    empty. *)
Lemma listDPRs_query (st : Store) (s : string) :
  listDPRs st (Some {| opt_q := Some s |})
  = List.filter (fun d => includes (toLowerCase (filename d)) (trim (toLowerCase s)))
                (dprs st).
Proof.
  unfold listDPRs. cbn [opt_q].
  destruct (String.eqb_spec (trim (toLowerCase s)) EmptyString) as [E | _]; [| reflexivity].
  rewrite E. symmetry. apply filter_all. intros d _. apply includes_empty.
Qed.

Lemma filter_sublist_impl {A : Type} (p q : A -> bool) (l : list A) :
  (forall x, p x = true -> q x = true) -> sublist (List.filter p l) (List.filter q l).
Proof.
  intros H. induction l as [|x l IH]; simpl; [constructor |].
  destruct (p x) eqn:P.
  - rewrite (H x P). constructor. exact IH.
  - destruct (q x); [constructor |]; exact IH.
Qed.

Lemma filter_sublist {A : Type} (p : A -> bool) (l : list A) : sublist (List.filter p l) l.
Proof.
  induction l as [|x l IH]; simpl; [constructor |].
  destruct (p x); constructor; exact IH.
Qed.

(** X20: without options, without a query, or with a query made only of
    white space (the empty query included), [listDPRs] returns every stored
    document. *)
Theorem listDPRs_without_query (st : Store) (s : string) :
  trim s = EmptyString ->
  listDPRs st None = dprs st /\
  listDPRs st (Some {| opt_q := None |}) = dprs st /\
  listDPRs st (Some {| opt_q := Some s |}) = dprs st.
Proof.
  intros E. split; [reflexivity |]. split; [reflexivity |].
  unfold listDPRs. cbn [opt_q]. rewrite trim_toLowerCase, E. reflexivity.
Qed.

Lemma listDPRs_without_query_witness :
  trim "  "%string = EmptyString /\
  listDPRs emptyStore None = dprs emptyStore /\
  listDPRs emptyStore (Some {| opt_q := None |}) = dprs emptyStore /\
  listDPRs emptyStore (Some {| opt_q := Some "  "%string |}) = dprs emptyStore.
Proof.
  split; [reflexivity | apply (listDPRs_without_query emptyStore "  "); reflexivity].
Defined.

(** X21: [listDPRs] returns exactly the stored documents whose filename, in
    lower case, contains the query in lower case and without surrounding
    white space. *)
Theorem listDPRs_membership (st : Store) (s : string) (d : DPRFile) :
  In d (listDPRs st (Some {| opt_q := Some s |}))
  <-> In d (dprs st)
      /\ occurs_in (trim (toLowerCase s)) (toLowerCase (filename d)).
Proof.
  rewrite listDPRs_query, filter_In, includes_spec. reflexivity.
Qed.

(** X22: whatever the options, [listDPRs] returns a sublist of the stored
    documents: it never adds a document and keeps their order. *)
Theorem listDPRs_sublist (st : Store) (opts : option ListOptions) :
  sublist (listDPRs st opts) (dprs st).
Proof.
  destruct opts as [[[s|]]|]; try reflexivity.
  rewrite listDPRs_query. apply filter_sublist.
Qed.

(** X23: every stored document is found by its own filename. *)
Theorem listDPRs_finds_own_filename (st : Store) (d : DPRFile) :
  In d (dprs st) -> In d (listDPRs st (Some {| opt_q := Some (filename d) |})).
Proof.
  intros Hd. rewrite listDPRs_query. apply filter_In. split; [exact Hd |].
  apply includes_spec, trim_occurs.
Qed.

(** X24: a longer query narrows the result: when the normalised query [s1]
    occurs in the normalised query [s2], the documents found for [s2] are a
    sublist of those found for [s1]. *)
Theorem listDPRs_narrowing (st : Store) (s1 s2 : string) :
  occurs_in (trim (toLowerCase s1)) (trim (toLowerCase s2)) ->
  sublist (listDPRs st (Some {| opt_q := Some s2 |}))
          (listDPRs st (Some {| opt_q := Some s1 |})).
Proof.
  intros H. rewrite !listDPRs_query. apply filter_sublist_impl.
  intros d Hd. apply includes_spec. apply includes_spec in Hd.
  eapply occurs_in_trans; eassumption.
Qed.

Lemma listDPRs_finds_own_filename_witness :
  let d := {| dpr_id := "k3x9a0bz"; filename := " Plan.PDF";
              uploadedAt := "2024-01-01T00:00:00.000Z"; dpr_language := EN;
              status := uploaded; sizeBytes := Some 2048 |} in
  let st := {| dprs := [d]; resultsMap := empty |} in
  In d (dprs st) /\ In d (listDPRs st (Some {| opt_q := Some (filename d) |})).
Proof.
  cbv zeta.
  assert (H : In {| dpr_id := "k3x9a0bz"; filename := " Plan.PDF";
                    uploadedAt := "2024-01-01T00:00:00.000Z"; dpr_language := EN;
                    status := uploaded; sizeBytes := Some 2048 |}
                 (dprs {| dprs := [{| dpr_id := "k3x9a0bz"; filename := " Plan.PDF";
                                      uploadedAt := "2024-01-01T00:00:00.000Z";
                                      dpr_language := EN; status := uploaded;
                                      sizeBytes := Some 2048 |}];
                          resultsMap := empty |}))
    by (left; reflexivity).
  split; [exact H | apply (listDPRs_finds_own_filename _ _ H)].
Defined.

Lemma listDPRs_narrowing_witness :
  occurs_in (trim (toLowerCase "plan")) (trim (toLowerCase " Plan.PDF ")) /\
  sublist (listDPRs emptyStore (Some {| opt_q := Some " Plan.PDF "%string |}))
          (listDPRs emptyStore (Some {| opt_q := Some "plan"%string |})).
Proof.
  assert (H : occurs_in (trim (toLowerCase "plan")) (trim (toLowerCase " Plan.PDF ")))
    by (exists EmptyString, ".pdf"%string; reflexivity).
  split; [exact H | apply (listDPRs_narrowing emptyStore "plan" " Plan.PDF " H)].
Defined.
